(** * Satellite-Data-Normalization: the trajectory / anomaly math engine

    A shallow embedding of [run.py]: the function [calculate_mission_state]
    (section 2 of the script), the drift metric with its status label
    (section 4) and what the page builds from them (sections 3, 5 and 6),
    followed by their properties.

    The script computes with numpy numbers.  The embedding is written once,
    over an interface [Num] holding the operations the script applies
    (the four arithmetic operations, [np.cos], [np.sin], [np.sqrt], the
    comparison [>] and the promotion of an integer literal).  It has two
    instances.  On the real numbers the structure of the results is
    established: what is sampled and at which times, which values the
    snapshot holds, what the page shows.  On binary64, the numbers the
    script runs on, the numbers themselves are established: the radius, the
    drift, the labels, for the values the page can give. *)

From Stdlib Require Import String Bool ZArith List Reals Lra Lia.
From Stdlib Require Floats Uint63 DecimalString QArith Qabs.
Import ListNotations.

Set Implicit Arguments.

(** ** The numbers of the script *)

Declare Scope num_scope.
Delimit Scope num_scope with num.

Class Num (A : Type) : Type := {
  of_int : Z -> A;          (* an int literal meeting a float: 7000, 100, 1 *)
  nadd : A -> A -> A;
  nsub : A -> A -> A;
  nmul : A -> A -> A;
  ndiv : A -> A -> A;       (* Python 3 true division *)
  ncos : A -> A;            (* np.cos *)
  nsin : A -> A;            (* np.sin *)
  nsqrt : A -> A;           (* np.sqrt *)
  ngtb : A -> A -> bool     (* > *)
}.

Infix "+" := nadd : num_scope.
Infix "-" := nsub : num_scope.
Infix "*" := nmul : num_scope.
Infix "/" := ndiv : num_scope.

(** The two literals of the script that are not integers, [0.5] and [7.5],
    are halves of integers. *)
Definition halves {A} `{Num A} (n : Z) : A := (of_int n / of_int 2)%num.

(** [x ** 2] *)
Definition sq {A} `{Num A} (x : A) : A := (x * x)%num.

(** ** numpy arrays of rank one *)

Section Arrays.
Context {A : Type} `{Num A}.

(** [c * v], a scalar times an array *)
Definition scal (c : A) (v : list A) : list A := map (fun x => (c * x)%num) v.

(** [v * c], an array times a scalar *)
Definition scar (v : list A) (c : A) : list A := map (fun x => (x * c)%num) v.

Definition np_cos (v : list A) : list A := map ncos v.
Definition np_sin (v : list A) : list A := map nsin v.

(** [v[-1] = x] on a list; nothing happens on the empty one. *)
Fixpoint set_last (v : list A) (x : A) : list A :=
  match v with
  | [] => []
  | [_] => [x]
  | y :: w => y :: set_last w x
  end.

(** [np.linspace(start, stop, num)], end point included, on the path numpy
    takes when the step is not zero: [arange(0, num) * step + start], the
    last entry then overwritten with [stop]. *)
Definition linspace (start stop : A) (num : nat) : list A :=
  let step := ((stop - start) / of_int (Z.of_nat (num - 1)))%num in
  let y := map (fun i => (of_int (Z.of_nat i) * step + start)%num) (seq 0 num) in
  if (1 <? num)%nat then set_last y stop else y.

(** Reading an entry, [v[i]]: an index past the end raises [IndexError]. *)
Definition item (v : list A) (i : nat) : option A := nth_error v i.
End Arrays.

(** ** 2. Data and math engine *)

Section Engine.
Context {A : Type} `{Num A}.

(** A path is the triple of arrays [(x, y, z)]; a snapshot is the tuple
    [(snap_xt, snap_yt, snap_xe, snap_ye, r_err)]. *)
Definition path : Type := (list A * list A * list A)%type.
Definition snapshot : Type := (A * A * A * A * A)%type.

Definition t_range : list A := linspace (of_int 0) (of_int 10) 100.
Definition t_snapshot : A := halves 15.
Definition r_base : A := of_int 7000.
Definition omega : A := halves 1.

Definition r_err (error_pct : A) : A :=
  (r_base * (of_int 1 + error_pct / of_int 100))%num.

Definition calculate_mission_state (error_pct : A) : path * path * snapshot :=
  (* Path Math *)
  let x_t := scal r_base (np_cos (scal omega t_range)) in
  let y_t := scal r_base (np_sin (scal omega t_range)) in
  let z_t := scar t_range (of_int 100) in
  (* Error Math *)
  let r_err := r_err error_pct in
  let x_e := scal r_err (np_cos (scal omega t_range)) in
  let y_e := scal r_err (np_sin (scal omega t_range)) in
  let z_e := z_t in
  (* Snapshot values for the Live Equation *)
  let snap_xt := (r_base * ncos (omega * t_snapshot))%num in
  let snap_yt := (r_base * nsin (omega * t_snapshot))%num in
  let snap_xe := (r_err * ncos (omega * t_snapshot))%num in
  let snap_ye := (r_err * nsin (omega * t_snapshot))%num in
  ((x_t, y_t, z_t), (x_e, y_e, z_e), (snap_xt, snap_yt, snap_xe, snap_ye, r_err)).

(** The three results, as the script unpacks them:
    [paths_t, paths_e, snap = calculate_mission_state(error_val)]. *)
Definition paths_t (e : A) : path := fst (fst (calculate_mission_state e)).
Definition paths_e (e : A) : path := snd (fst (calculate_mission_state e)).
Definition snap (e : A) : snapshot := snd (calculate_mission_state e).

(** [snap[0]] .. [snap[4]] *)
Definition snap0 (s : snapshot) : A := let '(a, _, _, _, _) := s in a.
Definition snap1 (s : snapshot) : A := let '(_, b, _, _, _) := s in b.
Definition snap2 (s : snapshot) : A := let '(_, _, c, _, _) := s in c.
Definition snap3 (s : snapshot) : A := let '(_, _, _, d, _) := s in d.
Definition snap4 (s : snapshot) : A := let '(_, _, _, _, r) := s in r.

(** [paths[0]], [paths[1]], [paths[2]] *)
Definition px (p : path) : list A := fst (fst p).
Definition py (p : path) : list A := snd (fst p).
Definition pz (p : path) : list A := snd p.

(** The sample of index [i] of a path, when all three arrays have it. *)
Definition sample (p : path) (i : nat) : option (A * A * A) :=
  match item (px p) i, item (py p) i, item (pz p) i with
  | Some x, Some y, Some z => Some (x, y, z)
  | _, _, _ => None
  end.

(** ** 4. Top metrics *)

(** [np.sqrt((snap[0]-snap[2])**2 + (snap[1]-snap[3])**2)] *)
Definition drift (s : snapshot) : A :=
  nsqrt (sq (snap0 s - snap2 s) + sq (snap1 s - snap3 s))%num.

(** [delta="CRITICAL" if drift > 500 else "OK"] *)
Definition status (d : A) : string :=
  if ngtb d (of_int 500) then "CRITICAL"%string else "OK"%string.
End Engine.

(** The closed forms of a sample, at radius [r] and time [t]: what the
    broadcast expressions of the path math compute entry by entry. *)

Section ClosedForms.
Context {A : Type} `{Num A}.

Definition x_at (r t : A) : A := (r * ncos (omega * t))%num.
Definition y_at (r t : A) : A := (r * nsin (omega * t))%num.
Definition z_at (t : A) : A := (t * of_int 100)%num.
End ClosedForms.

(** ** 3. Sidebar *)

Inductive db_mode : Type :=
| Normalized      (* "Normalized (Healthy)" *)
| Unnormalized.   (* "Unnormalized (Data Anomaly)" *)

(** [error_val = 0 if db_mode == "Normalized (Healthy)" else slider(5, 50, 20)];
    [slider] is the integer the slider holds. *)
Definition error_val (m : db_mode) (slider : Z) : Z :=
  match m with
  | Normalized => 0%Z
  | Unnormalized => slider
  end.

(** What the three metrics of the page show for a value of the control:
    the reported radius, the drift and its label. *)
Definition top_metrics {A} `{Num A} (error_val : Z) : A * A * string :=
  let s := snap (of_int error_val) in
  let d := drift s in
  (snap4 s, d, status d).

(** ** The real numbers as numbers of the script *)

#[export] Instance R_num : Num R := {
  of_int := IZR;
  nadd := Rplus;
  nsub := Rminus;
  nmul := Rmult;
  ndiv := Rdiv;
  ncos := cos;
  nsin := sin;
  nsqrt := sqrt;
  ngtb := fun x y => if Rgt_dec x y then true else false
}.


(** The grid the specification describes: 100 equally spaced times from 0 to
    10 inclusive, the one of index [i] being [0 + i * (10 - 0) / (100 - 1)]. *)
Definition grid (i : nat) : R := (INR i * (10 / 99))%R.

(** The Euclidean distance of two points of the plane. *)
Definition planar_distance (p q : R * R) : R :=
  sqrt ((fst p - fst q) ^ 2 + (snd p - snd q) ^ 2)%R.

(** ** binary64 as numbers of the script *)

(** An int meeting a float is converted; the conversion below is the exact
    one for the integers the script holds (all below [2^53]). *)
Definition float_of_int (z : Z) : PrimFloat.float :=
  match z with
  | Z0 => PrimFloat.zero
  | Zpos _ => PrimFloat.of_uint63 (Uint63.of_Z z)
  | Zneg p => PrimFloat.opp (PrimFloat.of_uint63 (Uint63.of_Z (Zpos p)))
  end.

(** [np.cos] and [np.sin] come from the platform's mathematical library and
    are left open. *)
Definition F_num (fcos fsin : PrimFloat.float -> PrimFloat.float) :
  Num PrimFloat.float := {|
  of_int := float_of_int;
  nadd := PrimFloat.add;
  nsub := PrimFloat.sub;
  nmul := PrimFloat.mul;
  ndiv := PrimFloat.div;
  ncos := fcos;
  nsin := fsin;
  nsqrt := PrimFloat.sqrt;
  ngtb := fun x y => PrimFloat.ltb y x
|}.

(** ** The rest of the page

    What the script builds from the results of the engine: the badge of the
    second metric, the figure, the equation panel and the redundant table.
    Numbers that the script formats into text ([:.2f], [:.0f]) are kept as
    numbers. *)

(** [st.sidebar.slider("Anomaly Severity (%)", 5, 50, 20)] hands back an
    integer from 5 to 50. *)
Definition slider_value (s : Z) : Prop := (5 <= s <= 50)%Z.

(** [abs] *)
Class Abs (A : Type) : Type := nabs : A -> A.

#[export] Instance R_abs : Abs R := Rabs.
#[export] Instance F_abs : Abs PrimFloat.float := PrimFloat.abs.

(** [f"{n}"] for an int [n] *)
Definition str_of_int (n : Z) : string :=
  DecimalString.NilZero.string_of_int (Z.to_int n).

(** [delta = f"{error_val}%" if error_val > 0 else None] *)
Definition metric_delta (error_val : Z) : option string :=
  if (error_val >? 0)%Z then Some (str_of_int error_val ++ "%")%string else None.

Inductive trace_mode : Type := markers | lines.

(** A [go.Scatter3d] trace: its name, mode, whether the line is dotted, and
    its three coordinate arrays. *)
Record trace (A : Type) : Type := {
  trace_name : string;
  trace_mode_of : trace_mode;
  trace_dot : bool;
  trace_x : list A;
  trace_y : list A;
  trace_z : list A
}.

(** The lines of the panel "Equation Resolution". *)
Inductive panel_item (A : Type) : Type :=
| Healthy (x : A)        (* X = 7000 cos(0.5 * 7.5) = snap[0] *)
| Anomaly (r x : A)      (* X = snap[4] cos(0.5 * 7.5) = snap[2] *)
| ErrorOffset (d : A)    (* "Error Offset: ... km" *)
| Aligned.               (* "Mathematical alignment is 100%" *)

Arguments Aligned {A}.

(** A row of [Master_List]. *)
Record master_row (A : Type) : Type := {
  row_ping : Z;
  row_name : string;
  row_radius : A;
  row_log : string
}.

Section Page.
Context {A : Type} `{Num A} `{Abs A}.

Definition earth_trace : trace A :=
  {| trace_name := "Earth"; trace_mode_of := markers; trace_dot := false;
     trace_x := [of_int 0]; trace_y := [of_int 0]; trace_z := [of_int 0] |}.

Definition real_trace (p : path) : trace A :=
  {| trace_name := "Real Path"; trace_mode_of := lines; trace_dot := false;
     trace_x := px p; trace_y := py p; trace_z := pz p |}.

Definition ghost_trace (p : path) : trace A :=
  {| trace_name := "Ghost Path"; trace_mode_of := lines; trace_dot := true;
     trace_x := px p; trace_y := py p; trace_z := pz p |}.

(** The traces added to [fig], in order; the ghost path only
    [if error_val > 0]. *)
Definition figure (error_val : Z) : list (trace A) :=
  let '(paths_t, paths_e, _) := calculate_mission_state (of_int error_val) in
  [earth_trace; real_trace paths_t] ++
  (if (error_val >? 0)%Z then [ghost_trace paths_e] else []).

(** [abs(snap[0]-snap[2])] *)
Definition error_offset (s : snapshot) : A := nabs (snap0 s - snap2 s)%num.

Definition equation_panel (error_val : Z) : list (panel_item A) :=
  let s := snap (of_int error_val) in
  Healthy (snap0 s) ::
  (if (error_val >? 0)%Z
   then [Anomaly (snap4 s) (snap2 s); ErrorOffset (error_offset s)]
   else [Aligned]).

(** [df_un], the table "Master_List (Redundant Data)". *)
Definition df_un (error_val : Z) : list (master_row A) :=
  [ {| row_ping := 101; row_name := "Sat-A"; row_radius := of_int 7000;
       row_log := "Verified" |};
    {| row_ping := 102; row_name := "Sat-A";
       row_radius := (of_int 7000 * (of_int 1 + of_int error_val / of_int 100))%num;
       row_log := "UPDATE FAILED (Anomaly)" |} ].
End Page.

(** In [Master_List] the radius is a property of the satellite: rows of one
    name should carry one radius. *)
Definition name_determines_radius {A} (t : list (master_row A)) : Prop :=
  forall r1 r2, In r1 t -> In r2 t ->
                row_name r1 = row_name r2 -> row_radius r1 = row_radius r2.

(** One unit in the last place: [x] is [v] or a neighbour of [v] among the
    binary64 numbers. *)
Definition within_one_ulp (x v : PrimFloat.float) : bool :=
  (PrimFloat.Leibniz.eqb x v || PrimFloat.Leibniz.eqb x (PrimFloat.next_up v)
   || PrimFloat.Leibniz.eqb x (PrimFloat.next_down v))%bool.

(** ** Reading binary64 results

    A finite binary64 number denotes a rational.  The figures the
    specification quotes are compared with that rational, so that no
    rounding enters the comparison itself. *)

Module Exact.
Import QArith Qabs.

(** The rational a binary64 number denotes; none for an infinity or a NaN. *)
Definition exact (x : PrimFloat.float) : option Q :=
  match FloatOps.Prim2SF x with
  | SpecFloat.S754_zero _ => Some 0
  | SpecFloat.S754_finite s m e =>
      Some ((if s then -1 else 1) * inject_Z (Zpos m) * Qpower 2 e)
  | _ => None
  end.

(** [p / q] *)
Definition ratio (p : Z) (q : positive) : Q := p # q.


(** [|x - v| <= tol] *)
Definition within (tol : Q) (x : PrimFloat.float) (v : Q) : bool :=
  match exact x with
  | Some u => Qle_bool (Qabs (u - v)) tol
  | None => false
  end.

(** The tolerance of the specification, [1e-9] relative:
    [|x - v| <= 1e-9 * |v|]. *)
Definition close_to (x : PrimFloat.float) (v : Q) : bool :=
  match exact x with
  | Some u => Qle_bool (Qabs (u - v) * 1000000000) (Qabs v)
  | None => false
  end.

(** [(p / q) * y], for a binary64 number [y] *)
Definition scaled (p : Z) (q : positive) (y : PrimFloat.float) : option Q :=
  match exact y with
  | Some w => Some ((p # q) * w)
  | None => None
  end.


Definition close_to_some (x : PrimFloat.float) (v : option Q) : bool :=
  match v with
  | Some v => close_to x v
  | None => false
  end.
End Exact.

(** ** The cosine and the sine of the platform

    The snapshot asks [np.cos] and [np.sin] at one angle only,
    [omega * t_snapshot = 3.75].  There numpy returns the binary64 numbers
    nearest to [cos 3.75] and [sin 3.75]:
    [-0.8205593573395608 = -7390941631899639 / 2^53] and
    [-0.5715613187423437 = -5148166684214817 / 2^53]. *)

Definition angle_375 : PrimFloat.float :=
  PrimFloat.div (float_of_int 15) (float_of_int 4).

Definition cos_375 : PrimFloat.float :=
  PrimFloat.div (float_of_int (-7390941631899639)) (float_of_int (2 ^ 53)).

Definition sin_375 : PrimFloat.float :=
  PrimFloat.div (float_of_int (-5148166684214817)) (float_of_int (2 ^ 53)).

(** A cosine and a sine are those of the platform at the snapshot when they
    return these two numbers there. *)
Definition platform_at_snapshot (fcos fsin : PrimFloat.float -> PrimFloat.float)
  : Prop :=
  fcos angle_375 = cos_375 /\ fsin angle_375 = sin_375.

(** The two functions known at that angle only (NaN elsewhere): enough to
    run the snapshot, the drift and the metrics. *)
Definition cos_table (x : PrimFloat.float) : PrimFloat.float :=
  if PrimFloat.eqb x angle_375 then cos_375 else PrimFloat.nan.

Definition sin_table (x : PrimFloat.float) : PrimFloat.float :=
  if PrimFloat.eqb x angle_375 then sin_375 else PrimFloat.nan.

(** [2^-k] on binary64. *)
Fixpoint half_power (k : nat) : PrimFloat.float :=
  match k with
  | O => PrimFloat.one
  | S k' => PrimFloat.div (half_power k') PrimFloat.two
  end.

(** binary64 with these two functions. *)
Definition B64 : Num PrimFloat.float := F_num cos_table sin_table.

(** The drift and the Error Offset the page computes for the control value
    [n], on binary64 with the cosine [fcos] and the sine [fsin]. *)
Definition drift64 (fcos fsin : PrimFloat.float -> PrimFloat.float) (n : Z)
  : PrimFloat.float :=
  drift (H := F_num fcos fsin) (snap (H := F_num fcos fsin) (float_of_int n)).

Definition radius64 (fcos fsin : PrimFloat.float -> PrimFloat.float) (n : Z)
  : PrimFloat.float :=
  snap4 (snd (calculate_mission_state (H := F_num fcos fsin) (float_of_int n))).

Definition offset64 (fcos fsin : PrimFloat.float -> PrimFloat.float) (n : Z)
  : PrimFloat.float :=
  error_offset (H := F_num fcos fsin) (snap (H := F_num fcos fsin) (float_of_int n)).

(** ** Properties of the arrays, for any numbers *)

Section ArrayFacts.
Context {A : Type} `{Num A}.

Lemma set_last_length (v : list A) (x : A) : length (set_last v x) = length v.
Proof.
  induction v as [|y w IH]; [reflexivity|].
  destruct w as [|y' w']; [reflexivity|].
  change (S (length (set_last (y' :: w') x)) = S (length (y' :: w'))).
  now rewrite IH.
Qed.

(** Below the last index [set_last] keeps the entries. *)
Lemma set_last_item_below (v : list A) (x : A) (i : nat) :
  (S i < length v)%nat -> item (set_last v x) i = item v i.
Proof.
  unfold item. revert i.
  induction v as [|y w IH]; intros i Hi; [reflexivity|].
  destruct w as [|y' w']; [simpl in Hi; lia|].
  destruct i as [|i]; [reflexivity|].
  change (nth_error (set_last (y' :: w') x) i = nth_error (y' :: w') i).
  apply IH. simpl in *. lia.
Qed.

(** At the last index it holds the new value. *)
Lemma set_last_item_last (v : list A) (x : A) :
  v <> [] -> item (set_last v x) (length v - 1) = Some x.
Proof.
  unfold item.
  induction v as [|y w IH]; intros Hv; [congruence|].
  destruct w as [|y' w']; [reflexivity|].
  change (nth_error (y :: set_last (y' :: w') x) (S (length w') - 0) = Some x).
  rewrite Nat.sub_0_r.
  change (nth_error (set_last (y' :: w') x) (length w') = Some x).
  replace (length w') with (length (y' :: w') - 1)%nat by (simpl; lia).
  apply IH. discriminate.
Qed.

Lemma linspace_length (start stop : A) (num : nat) :
  length (linspace start stop num) = num.
Proof.
  unfold linspace.
  destruct (1 <? num)%nat.
  - now rewrite set_last_length, length_map, length_seq.
  - now rewrite length_map, length_seq.
Qed.

(** Every entry but the last is [i * step + start]. *)
Lemma linspace_item_below (start stop : A) (num i : nat) :
  (S i < num)%nat ->
  item (linspace start stop num) i =
  Some (of_int (Z.of_nat i) * ((stop - start) / of_int (Z.of_nat (num - 1))) + start)%num.
Proof.
  intros Hi. unfold linspace.
  replace (1 <? num)%nat with true by (symmetry; apply Nat.ltb_lt; lia).
  rewrite set_last_item_below by (rewrite length_map, length_seq; exact Hi).
  unfold item.
  rewrite nth_error_map, nth_error_seq.
  replace (i <? num)%nat with true by (symmetry; apply Nat.ltb_lt; lia).
  reflexivity.
Qed.

(** The last entry is [stop] itself. *)
Lemma linspace_item_last (start stop : A) (num : nat) :
  (1 < num)%nat -> item (linspace start stop num) (num - 1) = Some stop.
Proof.
  intros Hn. unfold linspace.
  replace (1 <? num)%nat with true by (symmetry; apply Nat.ltb_lt; lia).
  set (y := map _ (seq 0 num)).
  assert (Hy : length y = num) by (unfold y; now rewrite length_map, length_seq).
  rewrite <- Hy.
  apply set_last_item_last.
  intros E. rewrite E in Hy. simpl in Hy. lia.
Qed.

Lemma item_map (B : Type) (f : B -> A) (v : list B) (i : nat) :
  item (map f v) i = option_map f (nth_error v i).
Proof. unfold item. apply nth_error_map. Qed.

Lemma item_None (v : list A) (i : nat) :
  (length v <= i)%nat -> item v i = None.
Proof. unfold item. apply nth_error_None. Qed.
End ArrayFacts.

(** ** Properties of the engine, for any numbers *)

Section EngineFacts.
Context {A : Type} `{Num A}.

Lemma t_range_length : length (t_range (A := A)) = 100%nat.
Proof. apply linspace_length. Qed.

Lemma paths_t_maps (e : A) :
  paths_t e = (map (x_at r_base) t_range, map (y_at r_base) t_range, map z_at t_range).
Proof.
  unfold paths_t, calculate_mission_state, scal, scar, np_cos, np_sin.
  cbv [fst snd]. now rewrite !map_map.
Qed.

Lemma paths_e_maps (e : A) :
  paths_e e = (map (x_at (r_err e)) t_range, map (y_at (r_err e)) t_range, map z_at t_range).
Proof.
  unfold paths_e, calculate_mission_state, scal, scar, np_cos, np_sin.
  cbv [fst snd]. now rewrite !map_map.
Qed.

Lemma snap_values (e : A) :
  snap e = (x_at r_base t_snapshot, y_at r_base t_snapshot,
            x_at (r_err e) t_snapshot, y_at (r_err e) t_snapshot, r_err e).
Proof. reflexivity. Qed.

Lemma paths_lengths (e : A) :
  (length (px (paths_t e)) = 100 /\ length (py (paths_t e)) = 100 /\
   length (pz (paths_t e)) = 100 /\ length (px (paths_e e)) = 100 /\
   length (py (paths_e e)) = 100 /\ length (pz (paths_e e)) = 100)%nat.
Proof.
  rewrite paths_t_maps, paths_e_maps. cbv [px py pz fst snd].
  rewrite !length_map, t_range_length. tauto.
Qed.

(** [z_e = z_t]: the ghost path carries the very array of the true path. *)
Lemma pz_shared (e : A) : pz (paths_e e) = pz (paths_t e).
Proof. reflexivity. Qed.

Lemma sample_maps (fx fy fz : A -> A) (v : list A) (i : nat) :
  sample (map fx v, map fy v, map fz v) i =
  option_map (fun t => (fx t, fy t, fz t)) (item v i).
Proof.
  unfold sample. cbv [px py pz fst snd].
  rewrite !item_map. unfold item.
  now destruct (nth_error v i).
Qed.

Lemma sample_paths_t (e : A) (i : nat) :
  sample (paths_t e) i =
  option_map (fun t => (x_at r_base t, y_at r_base t, z_at t)) (item t_range i).
Proof. rewrite paths_t_maps. apply sample_maps. Qed.

Lemma sample_paths_e (e : A) (i : nat) :
  sample (paths_e e) i =
  option_map (fun t => (x_at (r_err e) t, y_at (r_err e) t, z_at t)) (item t_range i).
Proof. rewrite paths_e_maps. apply sample_maps. Qed.

(** When the ghost radius is the base radius, the engine returns the true
    path twice and the true position twice. *)
Lemma ghost_is_true (e : A) :
  r_err e = r_base ->
  paths_e e = paths_t e /\
  snap2 (snap e) = snap0 (snap e) /\ snap3 (snap e) = snap1 (snap e).
Proof.
  intros E. rewrite paths_t_maps, paths_e_maps, snap_values, E.
  repeat split.
Qed.
End EngineFacts.

(** ** Properties of the engine over the real numbers *)

Local Open Scope R_scope.

Ltac to_reals :=
  cbv [of_int nadd nsub nmul ndiv ncos nsin nsqrt ngtb R_num halves sq] in *.

Lemma r_base_real : r_base = 7000.
Proof. reflexivity. Qed.

Lemma omega_real : omega = 0.5.
Proof. unfold omega. to_reals. lra. Qed.

Lemma t_snapshot_real : t_snapshot = 7.5.
Proof. unfold t_snapshot. to_reals. lra. Qed.

Lemma r_err_real (e : R) : r_err e = 7000 * (1 + e / 100).
Proof. reflexivity. Qed.

Lemma r_err_zero : r_err 0 = r_base.
Proof. rewrite r_err_real, r_base_real. lra. Qed.

Lemma x_at_real (r t : R) : x_at r t = r * cos (0.5 * t).
Proof. unfold x_at. rewrite omega_real. reflexivity. Qed.

Lemma y_at_real (r t : R) : y_at r t = r * sin (0.5 * t).
Proof. unfold y_at. rewrite omega_real. reflexivity. Qed.

Lemma z_at_real (t : R) : z_at t = 100 * t.
Proof. unfold z_at. to_reals. lra. Qed.

(** *** The time grid *)

Lemma grid_first : grid 0 = 0.
Proof. unfold grid. simpl. lra. Qed.

Lemma grid_last : grid 99 = 10.
Proof. unfold grid. rewrite INR_IZR_INZ. simpl. lra. Qed.


Lemma t_range_item (i : nat) :
  (i < 100)%nat -> item t_range i = Some (grid i).
Proof.
  intros Hi. unfold t_range.
  destruct (Nat.eq_dec i 99) as [->|Hn].
  - change 99%nat with (100 - 1)%nat at 1.
    rewrite linspace_item_last by lia.
    rewrite grid_last. reflexivity.
  - rewrite linspace_item_below by lia.
    f_equal. unfold grid. rewrite INR_IZR_INZ. to_reals.
    simpl Z.of_nat. lra.
Qed.

Lemma t_range_item_out (i : nat) :
  (100 <= i)%nat -> item (t_range (A := R)) i = None.
Proof. intros Hi. apply item_None. rewrite t_range_length. exact Hi. Qed.


(** *** The drift, in closed form *)

Lemma snap_diff_x (e : R) :
  snap0 (snap e) - snap2 (snap e) = - (70 * e) * cos (0.5 * 7.5).
Proof.
  rewrite snap_values. cbv [snap0 snap2].
  rewrite !x_at_real, r_err_real, r_base_real, t_snapshot_real. lra.
Qed.

Lemma snap_diff_y (e : R) :
  snap1 (snap e) - snap3 (snap e) = - (70 * e) * sin (0.5 * 7.5).
Proof.
  rewrite snap_values. cbv [snap1 snap3].
  rewrite !y_at_real, r_err_real, r_base_real, t_snapshot_real. lra.
Qed.

Lemma drift_real (s : snapshot) :
  drift s = sqrt ((snap0 s - snap2 s) ^ 2 + (snap1 s - snap3 s) ^ 2).
Proof. unfold drift. to_reals. f_equal. ring. Qed.

(** On the circle the planar offset is the difference of the radii:
    [drift = 70 * |e|]. *)
Lemma drift_closed_form (e : R) : drift (snap e) = 70 * Rabs e.
Proof.
  rewrite drift_real, snap_diff_x, snap_diff_y.
  set (a := 0.5 * 7.5).
  replace ((- (70 * e) * cos a) ^ 2 + (- (70 * e) * sin a) ^ 2)
    with (Rsqr (70 * e) * (Rsqr (sin a) + Rsqr (cos a)))
    by (unfold Rsqr; ring).
  rewrite sin2_cos2, Rmult_1_r, sqrt_Rsqr_abs, Rabs_mult.
  rewrite (Rabs_pos_eq 70) by lra.
  reflexivity.
Qed.

Lemma status_critical (d : R) : status d = "CRITICAL"%string <-> d > 500.
Proof.
  unfold status. to_reals.
  destruct (Rgt_dec d 500) as [Hd|Hd]; split; intros G;
    try reflexivity; try assumption; try discriminate; contradiction.
Qed.

Lemma status_ok (d : R) : status d = "OK"%string <-> ~ d > 500.
Proof.
  unfold status. to_reals.
  destruct (Rgt_dec d 500) as [Hd|Hd]; split; intros G;
    try reflexivity; try assumption; try discriminate; contradiction.
Qed.

(** *** What the page shows *)

(** In the mode "Normalized (Healthy)" the control is 0 wherever the slider
    was left: radius 7000, drift 0, label "OK". *)
Lemma normalized_metrics (slider : Z) :
  top_metrics (error_val Normalized slider) = (7000, 0, "OK"%string).
Proof.
  unfold top_metrics, error_val. change (of_int 0) with 0.
  assert (Hd : drift (snap 0) = 0)
    by (rewrite drift_closed_form, Rabs_R0; lra).
  assert (Hs : status (drift (snap 0)) = "OK"%string)
    by (apply status_ok; rewrite Hd; lra).
  rewrite Hs, Hd, snap_values. cbv [snap4]. now rewrite r_err_zero.
Qed.

(** ** The engine on binary64

    Whatever the platform's cosine and sine are, the arithmetic of the
    radius and of the time grid can be run. *)

Section Binary64.
Variables fcos fsin : PrimFloat.float -> PrimFloat.float.

#[local] Instance F_here : Num PrimFloat.float := F_num fcos fsin.

(** At the values of the three scenarios the radius is the exact one. *)
Lemma radius_binary64_scenarios :
  r_err (float_of_int 0) = float_of_int 7000 /\
  r_err (float_of_int 5) = float_of_int 7350 /\
  r_err (float_of_int 20) = float_of_int 8400.
Proof. repeat split; vm_compute; reflexivity. Qed.

(** It is not at every value of the slider: at 10 the radius comes out one
    unit in the last place above 7700, a relative distance of about
    [1.2e-16]. *)
Lemma radius_binary64_rounded :
  r_err (float_of_int 10) = (float_of_int 7700 + float_of_int 1 / float_of_int (2 ^ 40))%num /\
  ngtb (r_err (float_of_int 10)) (float_of_int 7700) = true.
Proof. split; vm_compute; reflexivity. Qed.

(** With no anomaly the ghost results are the true ones, bit for bit. *)
Lemma zero_anomaly_binary64 :
  snap4 (snap (float_of_int 0)) = float_of_int 7000 /\
  paths_e (float_of_int 0) = paths_t (float_of_int 0) /\
  snap2 (snap (float_of_int 0)) = snap0 (snap (float_of_int 0)) /\
  snap3 (snap (float_of_int 0)) = snap1 (snap (float_of_int 0)).
Proof.
  split.
  - rewrite snap_values. cbv [snap4]. vm_compute. reflexivity.
  - apply ghost_is_true. vm_compute. reflexivity.
Qed.

(** The grid starts at 0 and, its last entry being overwritten, ends at 10. *)
Lemma t_range_binary64_ends :
  item t_range 0 = Some (float_of_int 0) /\ item t_range 99 = Some (float_of_int 10).
Proof. split; vm_compute; reflexivity. Qed.

(** The threshold is strict. *)
Lemma status_binary64 :
  status (float_of_int 350) = "OK"%string /\
  status (float_of_int 500) = "OK"%string /\
  status (float_of_int 1400) = "CRITICAL"%string.
Proof. repeat split; vm_compute; reflexivity. Qed.
End Binary64.

(** ** The claims *)

(** C2: at [errorPercent = 0] the ghost radius is 7000, the ghost path is
    the true path (the same three arrays, hence the same sample at each of
    the 100 indices) and the drift of the snapshot is 0. *)
Theorem zero_anomaly :
  snap4 (snap 0) = 7000 /\
  paths_e 0 = paths_t 0 /\
  (forall i, (i < 100)%nat ->
     exists p, sample (paths_t 0) i = Some p /\ sample (paths_e 0) i = Some p) /\
  drift (snap 0) = 0.
Proof.
  destruct (ghost_is_true 0 r_err_zero) as (Hp & _ & _).
  repeat split.
  - rewrite snap_values. cbv [snap4]. rewrite r_err_zero. reflexivity.
  - exact Hp.
  - intros i Hi. rewrite Hp, sample_paths_t, (t_range_item Hi).
    eexists; split; reflexivity.
  - rewrite drift_closed_form, Rabs_R0. lra.
Qed.

Lemma zero_anomaly_witness :
  (0 < 100)%nat /\
  exists p, sample (paths_t 0) 0 = Some p /\ sample (paths_e 0) 0 = Some p.
Proof.
  split; [lia|].
  destruct zero_anomaly as (_ & _ & H & _).
  apply (H 0%nat). lia.
Defined.

(** C3: the drift is the Euclidean distance between the true position and
    the ghost position of the snapshot, and the label is "CRITICAL" exactly
    when the drift is above 500, "OK" otherwise. *)
Theorem drift_distance_and_label (e : R) :
  let s := snap e in
  drift s = planar_distance (snap0 s, snap1 s) (snap2 s, snap3 s) /\
  (status (drift s) = "CRITICAL"%string <-> drift s > 500) /\
  (status (drift s) = "OK"%string <-> ~ drift s > 500).
Proof.
  intros s. split; [|split].
  - apply drift_real.
  - apply status_critical.
  - apply status_ok.
Qed.

Lemma drift_distance_and_label_witness :
  drift (snap 20) > 500 /\ status (drift (snap 20)) = "CRITICAL"%string.
Proof.
  assert (H : drift (snap 20) > 500)
    by (rewrite drift_closed_form, Rabs_pos_eq by lra; lra).
  split; [exact H|].
  destruct (drift_distance_and_label 20) as (_ & Hc & _).
  apply Hc. exact H.
Defined.



(** C5: at every time [t] of the grid the sample of the true path is
    [(7000 cos (0.5 t), 7000 sin (0.5 t), 100 t)], whatever the input. *)
Theorem true_path_closed_form (e : R) (i : nat) (t : R) :
  item t_range i = Some t ->
  sample (paths_t e) i =
  Some (7000 * cos (0.5 * t), 7000 * sin (0.5 * t), 100 * t).
Proof.
  intros Ht. rewrite sample_paths_t, Ht. cbv [option_map].
  now rewrite x_at_real, y_at_real, z_at_real, r_base_real.
Qed.

Lemma true_path_closed_form_witness :
  item t_range 99 = Some 10 /\
  sample (paths_t 20) 99 =
  Some (7000 * cos (0.5 * 10), 7000 * sin (0.5 * 10), 100 * 10).
Proof.
  assert (H : item t_range 99 = Some 10)
    by (rewrite t_range_item by lia; now rewrite grid_last).
  split; [exact H|].
  apply (true_path_closed_form 20 99 H).
Defined.

(** C6: at every index from 0 to 99 the ghost path has the [z] of the true
    path; the two paths hold the same array of [z] values. *)
Theorem ghost_z_is_true_z (e : R) :
  pz (paths_e e) = pz (paths_t e) /\
  (forall i, (i < 100)%nat ->
     exists z, item (pz (paths_t e)) i = Some z /\
               item (pz (paths_e e)) i = Some z).
Proof.
  split; [apply pz_shared|].
  intros i Hi. rewrite pz_shared, paths_t_maps. cbv [pz snd].
  rewrite item_map. fold (item (t_range (A := R)) i).
  rewrite (t_range_item Hi). eexists; split; reflexivity.
Qed.

Lemma ghost_z_is_true_z_witness :
  (99 < 100)%nat /\
  exists z, item (pz (paths_t 50)) 99 = Some z /\
            item (pz (paths_e 50)) 99 = Some z.
Proof.
  split; [lia|].
  destruct (ghost_z_is_true_z 50) as (_ & H).
  apply (H 99%nat). lia.
Defined.

(** C7: the snapshot is the five values [(x_true, y_true, x_ghost, y_ghost,
    R_ghost)], the [x] and [y] of both paths at [t = 7.5] and the ghost
    radius. *)
Theorem snapshot_values (e : R) :
  let R_ghost := 7000 * (1 + e / 100) in
  snd (calculate_mission_state e) =
  (7000 * cos (0.5 * 7.5), 7000 * sin (0.5 * 7.5),
   R_ghost * cos (0.5 * 7.5), R_ghost * sin (0.5 * 7.5), R_ghost).
Proof.
  intros R_ghost. fold (snap e). rewrite snap_values.
  now rewrite !x_at_real, !y_at_real, r_err_real, r_base_real, t_snapshot_real.
Qed.

(** ** Further properties of the engine *)

(** *** The heights and the time grid *)

Lemma r_err_gap (e : R) : r_err e - r_base = 70 * e.
Proof. rewrite r_err_real, r_base_real. lra. Qed.

Lemma sample_paths_e_inv (e : R) (i : nat) (x y z : R) :
  sample (paths_e e) i = Some (x, y, z) ->
  exists t, item t_range i = Some t /\
            x = r_err e * cos (0.5 * t) /\ y = r_err e * sin (0.5 * t) /\
            z = 100 * t.
Proof.
  rewrite sample_paths_e.
  destruct (item t_range i) as [t|]; cbv [option_map]; [|discriminate].
  rewrite x_at_real, y_at_real, z_at_real.
  intros Hs. exists t. repeat split; congruence.
Qed.

Lemma grid_increasing (i j : nat) : (i < j)%nat -> grid i < grid j.
Proof.
  intros Hij. unfold grid. apply Rmult_lt_compat_r; [lra|].
  now apply lt_INR.
Qed.

Lemma item_pz_inv (e : R) (i : nat) (z : R) :
  item (pz (paths_t e)) i = Some z -> (i < 100)%nat /\ z = 100 * grid i.
Proof.
  rewrite paths_t_maps. cbv [pz snd]. rewrite item_map.
  fold (item (t_range (A := R)) i).
  destruct (Nat.lt_ge_cases i 100) as [Hi|Hi].
  - rewrite (t_range_item Hi). cbv [option_map]. rewrite z_at_real.
    intros Hz. split; [exact Hi|congruence].
  - rewrite (t_range_item_out Hi). discriminate.
Qed.

(** X5: along either path [z] climbs: it is 0 at the first sample, 1000 at
    the last, and strictly larger at a later index. *)
Theorem z_climbs (e : R) (p : path) (i j : nat) (zi zj : R) :
  p = paths_t e \/ p = paths_e e ->
  (i < j)%nat ->
  item (pz p) i = Some zi -> item (pz p) j = Some zj ->
  0 <= zi /\ zi < zj /\ zj <= 1000.
Proof.
  intros Hp Hij Hi Hj.
  assert (Hz : pz p = pz (paths_t e))
    by (destruct Hp as [-> | ->]; [reflexivity|apply pz_shared]).
  rewrite Hz in Hi, Hj.
  apply item_pz_inv in Hi as (Hi & ->).
  apply item_pz_inv in Hj as (Hj & ->).
  pose proof (grid_increasing Hij) as Hlt.
  assert (H0 : grid 0 <= grid i).
  { destruct i; [lra|]. left. apply grid_increasing. lia. }
  assert (H99 : grid j <= grid 99).
  { destruct (Nat.eq_dec j 99) as [->|Hn]; [lra|].
    left. apply grid_increasing. lia. }
  rewrite grid_first in H0. rewrite grid_last in H99. lra.
Qed.

Lemma z_climbs_witness :
  (paths_e 20 = paths_t 20 \/ paths_e 20 = paths_e 20) /\ (0 < 99)%nat /\
  item (pz (paths_e 20)) 0 = Some (100 * grid 0) /\
  item (pz (paths_e 20)) 99 = Some (100 * grid 99) /\
  0 <= 100 * grid 0 /\ 100 * grid 0 < 100 * grid 99 /\ 100 * grid 99 <= 1000.
Proof.
  assert (H0 : item (pz (paths_e 20)) 0 = Some (100 * grid 0)).
  { rewrite paths_e_maps. cbv [pz snd]. rewrite item_map.
    fold (item (t_range (A := R)) 0). rewrite t_range_item by lia.
    cbv [option_map]. now rewrite z_at_real. }
  assert (H99 : item (pz (paths_e 20)) 99 = Some (100 * grid 99)).
  { rewrite paths_e_maps. cbv [pz snd]. rewrite item_map.
    fold (item (t_range (A := R)) 99). rewrite t_range_item by lia.
    cbv [option_map]. now rewrite z_at_real. }
  assert (Hlt : (0 < 99)%nat) by lia.
  split; [right; reflexivity|]. split; [exact Hlt|].
  split; [exact H0|]. split; [exact H99|].
  apply (@z_climbs 20 (paths_e 20) 0 99 _ _ (or_intror eq_refl) Hlt H0 H99).
Defined.

(** X6: the time of the snapshot, 7.5, is none of the sampled times; it
    falls between the samples of index 74 and 75. *)
Theorem snapshot_between_samples :
  (forall i t, item t_range i = Some t -> t <> t_snapshot) /\
  (exists a b, item t_range 74 = Some a /\ item t_range 75 = Some b /\
               a < t_snapshot < b).
Proof.
  split.
  - intros i t Hi E.
    destruct (Nat.lt_ge_cases i 100) as [Hlt|Hge].
    + rewrite (t_range_item Hlt) in Hi. injection Hi as <-.
      rewrite t_snapshot_real in E. unfold grid in E.
      rewrite INR_IZR_INZ in E.
      assert (E' : IZR (Z.of_nat i * 40) = IZR 2970)
        by (rewrite mult_IZR; lra).
      apply eq_IZR in E'. lia.
    + rewrite (t_range_item_out Hge) in Hi. discriminate.
  - exists (grid 74), (grid 75).
    rewrite !t_range_item by lia. repeat split.
    + rewrite t_snapshot_real. unfold grid. rewrite INR_IZR_INZ.
      simpl Z.of_nat. lra.
    + rewrite t_snapshot_real. unfold grid. rewrite INR_IZR_INZ.
      simpl Z.of_nat. lra.
Qed.

Lemma snapshot_between_samples_witness :
  item t_range 74 = Some (grid 74) /\ grid 74 <> t_snapshot.
Proof.
  assert (H : item t_range 74 = Some (grid 74))
    by (rewrite t_range_item by lia; reflexivity).
  split; [exact H|].
  destruct snapshot_between_samples as (Hn & _).
  apply (Hn 74%nat _ H).
Defined.

(** *** Radii at and below zero *)

(** X7: the ghost radius is positive exactly above [-100]; at [-100] it is
    0, and it is only there that the ghost path falls onto the axis (every
    [x] and [y] is 0). *)
Theorem ghost_radius_sign (e : R) :
  (0 < snap4 (snap e) <-> -100 < e) /\
  (snap4 (snap e) = 0 <-> e = -100) /\
  ((forall i x y z, sample (paths_e e) i = Some (x, y, z) -> x = 0 /\ y = 0)
   <-> e = -100).
Proof.
  rewrite snap_values. cbv [snap4].
  split; [rewrite r_err_real; split; intros; lra|].
  split; [rewrite r_err_real; split; intros; lra|].
  split.
  - intros Hall.
    assert (Hs : sample (paths_e e) 0 =
                 Some (x_at (r_err e) (grid 0), y_at (r_err e) (grid 0),
                       z_at (grid 0)))
      by (rewrite sample_paths_e, t_range_item by lia; reflexivity).
    apply Hall in Hs as (Hx & _).
    rewrite x_at_real, grid_first, Rmult_0_r, cos_0, r_err_real in Hx. lra.
  - intros -> i x y z Hs.
    apply sample_paths_e_inv in Hs as (t & _ & -> & -> & _).
    replace (r_err (-100)) with 0 by (rewrite r_err_real; lra).
    split; ring.
Qed.

Lemma ghost_radius_sign_witness :
  sample (paths_e (-100)) 0 =
    Some (r_err (-100) * cos (0.5 * 0), r_err (-100) * sin (0.5 * 0), 100 * 0) /\
  r_err (-100) * cos (0.5 * 0) = 0 /\ r_err (-100) * sin (0.5 * 0) = 0.
Proof.
  assert (H : sample (paths_e (-100)) 0 =
              Some (r_err (-100) * cos (0.5 * 0),
                    r_err (-100) * sin (0.5 * 0), 100 * 0)).
  { rewrite sample_paths_e, t_range_item by lia. cbv [option_map].
    now rewrite grid_first, x_at_real, y_at_real, z_at_real. }
  split; [exact H|].
  destruct (ghost_radius_sign (-100)) as (_ & _ & _ & Hall).
  apply (Hall eq_refl 0%nat _ _ _ H).
Defined.

(** *** The metrics, by the integer the control holds *)

Lemma radius_of_int (n : Z) : snap4 (snap (IZR n)) = 7000 + 70 * IZR n.
Proof. rewrite snap_values. cbv [snap4]. rewrite r_err_real. lra. Qed.

Lemma drift_of_int (n : Z) : drift (snap (IZR n)) = 70 * IZR (Z.abs n).
Proof. now rewrite drift_closed_form, abs_IZR. Qed.

Lemma ghost_differs_iff (e : R) : paths_e e <> paths_t e <-> e <> 0.
Proof.
  split; intros G E; apply G.
  - subst e. apply (ghost_is_true 0 r_err_zero).
  - assert (Hs : sample (paths_e e) 0 = sample (paths_t e) 0) by now rewrite E.
    rewrite sample_paths_e, sample_paths_t, t_range_item in Hs by lia.
    cbv [option_map] in Hs.
    assert (Hx : x_at (r_err e) (grid 0) = x_at r_base (grid 0)) by congruence.
    rewrite !x_at_real, grid_first, Rmult_0_r, cos_0, !Rmult_1_r in Hx.
    pose proof (r_err_gap e). lra.
Qed.

Lemma ghost_differs_iff_int (n : Z) :
  paths_e (IZR n) <> paths_t (IZR n) <-> n <> 0%Z.
Proof.
  rewrite ghost_differs_iff. split; intros G E; apply G.
  - now subst n.
  - now apply eq_IZR.
Qed.

(** *** The figure *)

Section FigureFacts.
Context {A : Type} `{Num A}.

Lemma figure_traces (n : Z) :
  figure n =
  [earth_trace; real_trace (paths_t (of_int n))] ++
  (if (n >? 0)%Z then [ghost_trace (paths_e (of_int n))] else []).
Proof. reflexivity. Qed.

(** X12: in any arithmetic the figure holds two traces, or three when the
    control is above 0; each trace has as many [x] as [y] as [z], one point
    for the marker and 100 for each line. *)
Theorem figure_well_formed (n : Z) :
  length (figure n) = (if (n >? 0)%Z then 3 else 2)%nat /\
  (forall tr, In tr (figure n) ->
     length (trace_x tr) = length (trace_y tr) /\
     length (trace_y tr) = length (trace_z tr) /\
     length (trace_x tr) =
       match trace_mode_of tr with markers => 1 | lines => 100 end%nat).
Proof.
  rewrite figure_traces.
  destruct (paths_lengths (of_int n)) as (Hx & Hy & Hz & Hx' & Hy' & Hz').
  split; [now destruct (n >? 0)%Z|].
  intros tr Hin. apply in_app_or in Hin.
  destruct Hin as [[<- | [<- | []]] | Hin].
  - repeat split.
  - cbv [real_trace trace_x trace_y trace_z trace_mode_of].
    now rewrite Hx, Hy, Hz.
  - destruct (n >? 0)%Z; [|contradiction].
    destruct Hin as [<- | []].
    cbv [ghost_trace trace_x trace_y trace_z trace_mode_of].
    now rewrite Hx', Hy', Hz'.
Qed.
End FigureFacts.

Lemma figure_well_formed_witness :
  In (ghost_trace (paths_e (A := R) 20)) (figure 20) /\
  length (trace_x (ghost_trace (paths_e (A := R) 20))) = 100%nat.
Proof.
  assert (H : In (ghost_trace (paths_e (A := R) 20)) (figure 20))
    by (rewrite figure_traces; simpl; auto).
  split; [exact H|].
  destruct (figure_well_formed (A := R) 20) as (_ & Hall).
  destruct (Hall _ H) as (_ & _ & Hl). exact Hl.
Defined.

(** *** The page, for the values the sidebar can give *)

Lemma ghost_trace_drawn (n : Z) :
  In "Ghost Path"%string (map (@trace_name R) (figure n)) <-> (0 < n)%Z.
Proof.
  rewrite figure_traces, map_app.
  destruct (n >? 0)%Z eqn:E.
  - apply Z.gtb_lt in E. split; [intros _; exact E|].
    intros _. apply in_or_app. right. left. reflexivity.
  - assert (E' : ~ (0 < n)%Z) by (rewrite <- Z.gtb_lt; congruence).
    split; [|intros G; contradiction].
    intros Hin. apply in_app_or in Hin.
    destruct Hin as [[G | [G | []]] | []]; discriminate G.
Qed.

Lemma aligned_shown (n : Z) :
  In Aligned (equation_panel (A := R) n) <-> (n <= 0)%Z.
Proof.
  unfold equation_panel.
  destruct (n >? 0)%Z eqn:E.
  - apply Z.gtb_lt in E. split; [|lia].
    intros [G | [G | [G | []]]]; discriminate G.
  - assert (E' : (n <= 0)%Z) by (rewrite Z.gtb_ltb, Z.ltb_ge in E; exact E).
    split; [intros _; exact E'|]. intros _. right. left. reflexivity.
Qed.

(** X13: with the mode and slider of the sidebar the page is consistent:
    "Mathematical alignment is 100%" is shown exactly when the drift is 0,
    the ghost path is drawn exactly when it differs from the true path, and
    the badge under the reported radius is absent exactly in the mode
    "Normalized (Healthy)". *)
Theorem page_consistent (m : db_mode) (s : Z) :
  slider_value s ->
  let n := error_val m s in
  (In Aligned (equation_panel (A := R) n) <-> drift (snap (IZR n)) = 0) /\
  (In "Ghost Path"%string (map (@trace_name R) (figure n)) <->
   paths_e (IZR n) <> paths_t (IZR n)) /\
  (metric_delta n = None <-> m = Normalized).
Proof.
  intros [H5 H50] n.
  assert (Hn : (0 <= n)%Z) by (destruct m; cbv [n error_val]; lia).
  assert (Hm : (n = 0)%Z <-> m = Normalized).
  { destruct m; cbv [n error_val]; split; intros G;
      try reflexivity; try discriminate; lia. }
  rewrite aligned_shown, ghost_trace_drawn, drift_of_int, ghost_differs_iff_int.
  rewrite (Z.abs_eq n) by lia.
  split; [|split].
  - split; intros G.
    + replace n with 0%Z by lia. lra.
    + assert (G' : IZR n = 0) by lra. apply eq_IZR in G'. lia.
  - split; intros G; lia.
  - unfold metric_delta. rewrite <- Hm.
    destruct (n >? 0)%Z eqn:E.
    + apply Z.gtb_lt in E. split; [discriminate|lia].
    + rewrite Z.gtb_ltb, Z.ltb_ge in E. split; [lia|reflexivity].
Qed.

Lemma page_consistent_witness :
  slider_value 20 /\
  (In "Ghost Path"%string
      (map (@trace_name R) (figure (error_val Unnormalized 20))) <->
   paths_e (IZR (error_val Unnormalized 20)) <>
   paths_t (IZR (error_val Unnormalized 20))).
Proof.
  assert (H : slider_value 20) by (unfold slider_value; lia).
  split; [exact H|].
  destruct (@page_consistent Unnormalized 20 H) as (_ & Hg & _).
  exact Hg.
Defined.

(** *** The redundant table *)

Lemma df_un_radii (n : Z) :
  map (@row_radius R) (df_un n) = [r_base; snap4 (snap (IZR n))].
Proof. reflexivity. Qed.

(** X14: [Master_List] repeats the radius of "Sat-A" on its two rows: 7000,
    then the radius the metric reports.  The name determines the radius in
    that table exactly when the control is 0. *)
Theorem master_list_consistent_iff (n : Z) :
  map (@row_name R) (df_un n) = ["Sat-A"%string; "Sat-A"%string] /\
  map (@row_radius R) (df_un n) = [7000; snap4 (snap (IZR n))] /\
  (name_determines_radius (df_un (A := R) n) <-> n = 0%Z).
Proof.
  split; [reflexivity|]. split; [apply df_un_radii|].
  pose proof (radius_of_int n) as Hr.
  split.
  - intros Hfd.
    pose proof (Hfd _ _ (or_introl eq_refl) (or_intror (or_introl eq_refl))
                    eq_refl) as E.
    change (7000 = snap4 (snap (IZR n))) in E.
    assert (E' : IZR n = 0) by lra.
    now apply eq_IZR.
  - intros -> r1 r2 H1 H2 _.
    assert (Hall : forall r, In r (df_un (A := R) 0) -> row_radius r = 7000).
    { intros r [<- | [<- | []]]; [reflexivity|].
      change (row_radius _) with (snap4 (snap (IZR 0))).
      rewrite radius_of_int. lra. }
    now rewrite (Hall r1 H1), (Hall r2 H2).
Qed.

(** *** The reported radius on binary64, to the last place *)

Lemma in_range_0_50 (n : Z) :
  (0 <= n <= 50)%Z -> In n (map Z.of_nat (seq 0 51)).
Proof.
  intros Hn. rewrite <- (Z2Nat.id n) by lia.
  apply in_map, in_seq. lia.
Qed.

(** X15: on binary64, whatever the cosine and sine, the ghost radius the
    engine returns for an integer from 0 to 50 (all that the sidebar can
    give) is the exact [7000 + 70 n] or one of its two neighbours. *)
Theorem radius_binary64_within_ulp
        (fcos fsin : PrimFloat.float -> PrimFloat.float) (n : Z) :
  (0 <= n <= 50)%Z ->
  within_one_ulp
    (snap4 (snap (H := F_num fcos fsin) (float_of_int n)))
    (float_of_int (7000 + 70 * n)) = true.
Proof.
  intros Hn. apply in_range_0_50 in Hn. revert n Hn.
  apply forallb_forall. vm_compute. reflexivity.
Qed.

Lemma radius_binary64_within_ulp_witness :
  (0 <= 10 <= 50)%Z /\
  within_one_ulp
    (snap4 (snap (H := F_num PrimFloat.sqrt PrimFloat.sqrt) (float_of_int 10)))
    (float_of_int (7000 + 70 * 10)) = true.
Proof.
  assert (H : (0 <= 10 <= 50)%Z) by lia.
  split; [exact H|].
  apply (radius_binary64_within_ulp PrimFloat.sqrt PrimFloat.sqrt H).
Defined.

(** ** The numbers of the page on binary64

    The snapshot, the drift and the metrics as the script computes them, on
    binary64, for any cosine and sine that return at the snapshot angle
    what the platform returns there. *)

Section Binary64Snapshot.
Variables fcos fsin : PrimFloat.float -> PrimFloat.float.

#[local] Instance F_page : Num PrimFloat.float := F_num fcos fsin.

(** The radius asks neither function. *)
Lemma radius64_any (n : Z) : radius64 fcos fsin n = radius64 cos_table sin_table n.
Proof. reflexivity. Qed.


Hypothesis Hplatform : platform_at_snapshot fcos fsin.

(** The snapshot asks them at 3.75 only. *)
Lemma snap_on_platform (e : PrimFloat.float) :
  snap (H := F_num fcos fsin) e = snap (H := B64) e.
Proof.
  destruct Hplatform as [Hc Hs].
  rewrite !snap_values. unfold x_at, y_at, B64.
  change (@ncos _ (F_num fcos fsin)) with fcos.
  change (@nsin _ (F_num fcos fsin)) with fsin.
  change (@ncos _ (F_num cos_table sin_table)) with cos_table.
  change (@nsin _ (F_num cos_table sin_table)) with sin_table.
  change (@nmul _ (F_num fcos fsin) (@omega _ (F_num fcos fsin))
                (@t_snapshot _ (F_num fcos fsin))) with angle_375.
  change (@nmul _ (F_num cos_table sin_table)
                (@omega _ (F_num cos_table sin_table))
                (@t_snapshot _ (F_num cos_table sin_table))) with angle_375.
  rewrite Hc, Hs.
  change (cos_table angle_375) with cos_375.
  change (sin_table angle_375) with sin_375.
  reflexivity.
Qed.

Lemma drift64_on_platform (n : Z) :
  drift64 fcos fsin n = drift64 cos_table sin_table n.
Proof. unfold drift64. rewrite snap_on_platform. reflexivity. Qed.

Lemma offset64_on_platform (n : Z) :
  offset64 fcos fsin n = offset64 cos_table sin_table n.
Proof. unfold offset64. rewrite snap_on_platform. reflexivity. Qed.

End Binary64Snapshot.

(** *** Checked over the values of the control *)





Lemma drift64_close_checked :
  forallb (fun n => Exact.close_to (drift64 cos_table sin_table n)
                                   (Exact.ratio (70 * n) 1))
          (map Z.of_nat (seq 0 51)) = true.
Proof. vm_compute. reflexivity. Qed.

Lemma status64_checked :
  forallb (fun n => String.eqb
                      (status (H := B64) (drift64 cos_table sin_table n))
                      (if (8 <=? n)%Z then "CRITICAL" else "OK"))
          (map Z.of_nat (seq 0 51)) = true.
Proof. vm_compute. reflexivity. Qed.

(** ** The claims about numbers, on binary64 *)





Lemma platform_table : platform_at_snapshot cos_table sin_table.
Proof. split; vm_compute; reflexivity. Qed.



(** C9, as the code has it: at [errorPercent = 5] the ghost radius is 7350,
    the drift of the snapshot is 350.0 km to the decimal (and to [1e-9]
    relative), it does not exceed 500 and the label is "OK". *)
Theorem scenario_five_binary64
        (fcos fsin : PrimFloat.float -> PrimFloat.float) :
  platform_at_snapshot fcos fsin ->
  radius64 fcos fsin 5 = float_of_int 7350 /\
  Exact.within (Exact.ratio 1 10) (drift64 fcos fsin 5) (Exact.ratio 3500 10)
  = true /\
  Exact.close_to (drift64 fcos fsin 5) (Exact.ratio 350 1) = true /\
  @ngtb _ (F_num fcos fsin) (drift64 fcos fsin 5) (float_of_int 500) = false /\
  status (H := F_num fcos fsin) (drift64 fcos fsin 5) = "OK"%string.
Proof.
  intros Hp. rewrite radius64_any, !(drift64_on_platform Hp).
  repeat split; vm_compute; reflexivity.
Qed.

Lemma scenario_five_binary64_witness :
  platform_at_snapshot cos_table sin_table /\
  radius64 cos_table sin_table 5 = float_of_int 7350 /\
  status (H := B64) (drift64 cos_table sin_table 5) = "OK"%string.
Proof.
  split; [exact platform_table|].
  destruct (scenario_five_binary64 platform_table) as (Hr & _ & _ & _ & Hs).
  split; [exact Hr|exact Hs].
Defined.

(** C9, as stated, fails: the drift at [errorPercent = 5] is further than
    one unit of the decimal quoted from 349.8. *)
Lemma scenario_five_binary64_not_349_8 :
  ~ (radius64 cos_table sin_table 5 = float_of_int 7350 /\
     Exact.within (Exact.ratio 1 10) (drift64 cos_table sin_table 5)
                  (Exact.ratio 3498 10) = true /\
     status (H := B64) (drift64 cos_table sin_table 5) = "OK"%string).
Proof.
  intros (_ & H & _). vm_compute in H. discriminate H.
Qed.




(** ** Further properties of the numbers, on binary64 *)

(** X9: on binary64, for the integer [n] of the control from 0 to 50, the
    three metrics are the radius, [7000 + 70 n] to [1e-9] relative, the
    drift, [70 n] to [1e-9] relative, and the label "CRITICAL" from 8 on,
    "OK" below. *)
Theorem metrics_binary64
        (fcos fsin : PrimFloat.float -> PrimFloat.float) (n : Z) :
  platform_at_snapshot fcos fsin ->
  (0 <= n <= 50)%Z ->
  top_metrics (H := F_num fcos fsin) n =
    (radius64 fcos fsin n, drift64 fcos fsin n,
     if (8 <=? n)%Z then "CRITICAL"%string else "OK"%string) /\
  Exact.close_to (radius64 fcos fsin n) (Exact.ratio (7000 + 70 * n) 1) = true /\
  Exact.close_to (drift64 fcos fsin n) (Exact.ratio (70 * n) 1) = true.
Proof.
  intros Hp Hn. apply in_range_0_50 in Hn.
  pose proof status64_checked as Cs. rewrite forallb_forall in Cs.
  pose proof drift64_close_checked as Cd. rewrite forallb_forall in Cd.
  assert (Cr : forallb (fun n => Exact.close_to (radius64 cos_table sin_table n)
                                   (Exact.ratio (7000 + 70 * n) 1))
                       (map Z.of_nat (seq 0 51)) = true)
    by (vm_compute; reflexivity).
  rewrite forallb_forall in Cr.
  split; [|split].
  - unfold top_metrics.
    change (snap4 (snap (H := F_num fcos fsin) (of_int n)))
      with (radius64 fcos fsin n).
    change (drift (snap (H := F_num fcos fsin) (of_int n)))
      with (drift64 fcos fsin n).
    change (status (H := F_num fcos fsin) (drift64 fcos fsin n))
      with (status (H := B64) (drift64 fcos fsin n)).
    rewrite (drift64_on_platform Hp) at 2.
    rewrite (proj1 (String.eqb_eq _ _) (Cs n Hn)). reflexivity.
  - rewrite radius64_any. exact (Cr n Hn).
  - rewrite (drift64_on_platform Hp). exact (Cd n Hn).
Qed.

Lemma metrics_binary64_witness :
  platform_at_snapshot cos_table sin_table /\ (0 <= 8 <= 50)%Z /\
  top_metrics (H := B64) 8 =
    (radius64 cos_table sin_table 8, drift64 cos_table sin_table 8,
     "CRITICAL"%string).
Proof.
  assert (H : (0 <= 8 <= 50)%Z) by lia.
  split; [exact platform_table|]. split; [exact H|].
  destruct (metrics_binary64 platform_table H) as (Hm & _).
  exact Hm.
Defined.

(** X10: on binary64, over the range of the slider, 5 to 50, the reported
    radius stays between 7350 and 10500 and the drift between its values
    at 5 and at 50, which are 350 and 3500 to [1e-9] relative; the label is
    "OK" at 5, 6 and 7 and "CRITICAL" from 8 on. *)
Theorem slider_range_binary64
        (fcos fsin : PrimFloat.float -> PrimFloat.float) (s : Z) :
  platform_at_snapshot fcos fsin ->
  slider_value s ->
  let n := error_val Unnormalized s in
  PrimFloat.leb (float_of_int 7350) (radius64 fcos fsin n) = true /\
  PrimFloat.leb (radius64 fcos fsin n) (float_of_int 10500) = true /\
  PrimFloat.leb (drift64 fcos fsin 5) (drift64 fcos fsin n) = true /\
  PrimFloat.leb (drift64 fcos fsin n) (drift64 fcos fsin 50) = true /\
  Exact.close_to (drift64 fcos fsin 5) (Exact.ratio 350 1) = true /\
  Exact.close_to (drift64 fcos fsin 50) (Exact.ratio 3500 1) = true /\
  (status (H := F_num fcos fsin) (drift64 fcos fsin n) = "CRITICAL"%string
   <-> (8 <= s)%Z) /\
  (status (H := F_num fcos fsin) (drift64 fcos fsin n) = "OK"%string
   <-> (s <= 7)%Z).
Proof.
  intros Hp [H5 H50]. cbv [error_val]. cbv zeta.
  assert (Hn : In s (map Z.of_nat (seq 0 51))) by (apply in_range_0_50; lia).
  change (status (H := F_num fcos fsin) (drift64 fcos fsin s))
    with (status (H := B64) (drift64 fcos fsin s)).
  rewrite !radius64_any, !(drift64_on_platform Hp).
  pose proof status64_checked as Cs. rewrite forallb_forall in Cs.
  specialize (Cs s Hn). apply String.eqb_eq in Cs. rewrite Cs.
  assert (C : forallb (fun n =>
              implb (5 <=? n)%Z
                (PrimFloat.leb (float_of_int 7350) (radius64 cos_table sin_table n) &&
                 PrimFloat.leb (radius64 cos_table sin_table n) (float_of_int 10500) &&
                 PrimFloat.leb (drift64 cos_table sin_table 5)
                               (drift64 cos_table sin_table n) &&
                 PrimFloat.leb (drift64 cos_table sin_table n)
                               (drift64 cos_table sin_table 50)))
            (map Z.of_nat (seq 0 51)) = true)
    by (vm_compute; reflexivity).
  rewrite forallb_forall in C. specialize (C s Hn).
  replace (5 <=? s)%Z with true in C by (symmetry; apply Z.leb_le; lia).
  cbv [implb] in C.
  apply andb_prop in C as [C C4]. apply andb_prop in C as [C C3].
  apply andb_prop in C as [C1 C2].
  split; [exact C1|]. split; [exact C2|]. split; [exact C3|]. split; [exact C4|].
  split; [vm_compute; reflexivity|]. split; [vm_compute; reflexivity|].
  destruct (8 <=? s)%Z eqn:E.
  - apply Z.leb_le in E.
    split; split; intros G; try reflexivity; try discriminate G; lia.
  - apply Z.leb_gt in E.
    split; split; intros G; try reflexivity; try discriminate G; lia.
Qed.

Lemma slider_range_binary64_witness :
  platform_at_snapshot cos_table sin_table /\ slider_value 50 /\
  PrimFloat.leb (drift64 cos_table sin_table (error_val Unnormalized 50))
                (drift64 cos_table sin_table 50) = true.
Proof.
  assert (H : slider_value 50) by (unfold slider_value; lia).
  split; [exact platform_table|]. split; [exact H|].
  destruct (slider_range_binary64 platform_table H) as (_ & _ & _ & Hd & _).
  exact Hd.
Defined.

(** X11: on binary64, for the integer [n] of the control from 0 to 50, the
    "Error Offset" is never above the drift, is strictly below it from 1
    on, and is [70 n] times [|cos_375|] to [1e-9] relative. *)
Theorem error_offset_binary64
        (fcos fsin : PrimFloat.float -> PrimFloat.float) (n : Z) :
  platform_at_snapshot fcos fsin ->
  (0 <= n <= 50)%Z ->
  PrimFloat.leb (offset64 fcos fsin n) (drift64 fcos fsin n) = true /\
  ((1 <= n)%Z ->
   PrimFloat.ltb (offset64 fcos fsin n) (drift64 fcos fsin n) = true) /\
  Exact.close_to_some (offset64 fcos fsin n)
    (Exact.scaled (70 * n) 1 (PrimFloat.abs cos_375)) = true.
Proof.
  intros Hp Hn. apply in_range_0_50 in Hn.
  rewrite (offset64_on_platform Hp), (drift64_on_platform Hp).
  assert (C : forallb (fun n =>
              PrimFloat.leb (offset64 cos_table sin_table n)
                            (drift64 cos_table sin_table n) &&
              implb (1 <=? n)%Z
                    (PrimFloat.ltb (offset64 cos_table sin_table n)
                                   (drift64 cos_table sin_table n)) &&
              Exact.close_to_some (offset64 cos_table sin_table n)
                (Exact.scaled (70 * n) 1 (PrimFloat.abs cos_375)))
            (map Z.of_nat (seq 0 51)) = true)
    by (vm_compute; reflexivity).
  rewrite forallb_forall in C. specialize (C n Hn).
  apply andb_prop in C as [C C3]. apply andb_prop in C as [C1 C2].
  split; [exact C1|]. split; [|exact C3].
  intros H1.
  replace (1 <=? n)%Z with true in C2 by (symmetry; apply Z.leb_le; lia).
  exact C2.
Qed.

Lemma error_offset_binary64_witness :
  platform_at_snapshot cos_table sin_table /\ (0 <= 5 <= 50)%Z /\ (1 <= 5)%Z /\
  PrimFloat.ltb (offset64 cos_table sin_table 5)
                (drift64 cos_table sin_table 5) = true.
Proof.
  assert (H : (0 <= 5 <= 50)%Z) by lia.
  assert (H1 : (1 <= 5)%Z) by lia.
  split; [exact platform_table|]. split; [exact H|]. split; [exact H1|].
  destruct (error_offset_binary64 platform_table H) as (_ & Hlt & _).
  exact (Hlt H1).
Defined.

(** X16: on binary64 a positive input as small as [2^-47], down to the
    smallest positive number [2^-1074], is absorbed: the ghost radius is
    7000 itself, the ghost path is the true path and the drift is 0. *)
Theorem small_inputs_absorbed
        (fcos fsin : PrimFloat.float -> PrimFloat.float) (k : nat) :
  platform_at_snapshot fcos fsin ->
  (47 <= k <= 1074)%nat ->
  let e := half_power k in
  PrimFloat.ltb PrimFloat.zero e = true /\
  snap4 (snap (H := F_num fcos fsin) e) = float_of_int 7000 /\
  paths_e (H := F_num fcos fsin) e = paths_t (H := F_num fcos fsin) e /\
  drift (H := F_num fcos fsin) (snap (H := F_num fcos fsin) e) = PrimFloat.zero.
Proof.
  intros Hp Hk e.
  assert (Hin : In k (seq 47 1028)) by (apply in_seq; lia).
  assert (C : forallb (fun k =>
              PrimFloat.ltb PrimFloat.zero (half_power k) &&
              PrimFloat.Leibniz.eqb (r_err (H := B64) (half_power k))
                                    (float_of_int 7000) &&
              PrimFloat.Leibniz.eqb
                (drift (H := B64) (snap (H := B64) (half_power k)))
                PrimFloat.zero)
            (seq 47 1028) = true)
    by (vm_compute; reflexivity).
  rewrite forallb_forall in C. specialize (C k Hin).
  apply andb_prop in C as [C C3]. apply andb_prop in C as [C1 C2].
  apply FloatAxioms.Leibniz.eqb_spec in C2.
  apply FloatAxioms.Leibniz.eqb_spec in C3.
  assert (Hr : r_err (H := F_num fcos fsin) e = r_base (H := F_num fcos fsin))
    by exact C2.
  split; [exact C1|]. split; [exact C2|].
  split; [apply (ghost_is_true (H := F_num fcos fsin) e Hr)|].
  rewrite (snap_on_platform Hp). exact C3.
Qed.

Lemma small_inputs_absorbed_witness :
  platform_at_snapshot cos_table sin_table /\ (47 <= 80 <= 1074)%nat /\
  PrimFloat.ltb PrimFloat.zero (half_power 80) = true /\
  paths_e (H := B64) (half_power 80) = paths_t (H := B64) (half_power 80).
Proof.
  assert (H : (47 <= 80 <= 1074)%nat) by lia.
  split; [exact platform_table|]. split; [exact H|].
  destruct (small_inputs_absorbed platform_table H) as (Hpos & _ & Hpaths & _).
  split; [exact Hpos|exact Hpaths].
Defined.
